(** * Service skeleton: the control handler, the service routine and [main]

    A shallow embedding of [assets/service_skeleton_test/main.cpp].

    The program owns two globals, [serviceStatus] and [serviceStatusHandle],
    and talks to the service control manager (SCM) through four calls:
    [RegisterServiceCtrlHandler], [SetServiceStatus], [Sleep] and
    [StartServiceCtrlDispatcher].  The globals live in a [World] together
    with the trace of calls made so far; the SCM's answers are inputs.

    Two threads touch the globals: the service thread that runs
    [ServiceMain], and the dispatcher thread on which the SCM calls
    [ServiceCtrlHandler].  Part 1 gives each routine as a sequential
    function; Part 2 is a two-thread machine whose steps are the source
    statements, named after their line numbers, run under a schedule. *)

From Stdlib Require Import ZArith List String Bool Lia.
Import ListNotations.
Local Open Scope Z_scope.

(** ** Windows types and constants *)

Definition DWORD := Z.
Definition BOOL := Z.
Definition SERVICE_STATUS_HANDLE := Z.

(** Values of <winsvc.h> and <winnt.h>. *)
Definition SERVICE_CONTROL_STOP : DWORD := 1.
Definition SERVICE_STOPPED : DWORD := 1.
Definition SERVICE_RUNNING : DWORD := 4.
Definition SERVICE_WIN32_OWN_PROCESS : DWORD := 16.
Definition SERVICE_ACCEPT_STOP : DWORD := 1.
Definition TRUE : BOOL := 1.
Definition FALSE : BOOL := 0.

(** A failed [RegisterServiceCtrlHandler] returns the null handle. *)
Definition NULL_HANDLE : SERVICE_STATUS_HANDLE := 0.

(** The struct of <winsvc.h>: seven DWORD fields. *)
Record SERVICE_STATUS := mkStatus {
  dwServiceType : DWORD;
  dwCurrentState : DWORD;
  dwControlsAccepted : DWORD;
  dwWin32ExitCode : DWORD;
  dwServiceSpecificExitCode : DWORD;
  dwCheckPoint : DWORD;
  dwWaitHint : DWORD
}.

Definition set_dwServiceType (v : DWORD) (s : SERVICE_STATUS) : SERVICE_STATUS :=
  mkStatus v (dwCurrentState s) (dwControlsAccepted s) (dwWin32ExitCode s)
           (dwServiceSpecificExitCode s) (dwCheckPoint s) (dwWaitHint s).

Definition set_dwCurrentState (v : DWORD) (s : SERVICE_STATUS) : SERVICE_STATUS :=
  mkStatus (dwServiceType s) v (dwControlsAccepted s) (dwWin32ExitCode s)
           (dwServiceSpecificExitCode s) (dwCheckPoint s) (dwWaitHint s).

Definition set_dwControlsAccepted (v : DWORD) (s : SERVICE_STATUS) : SERVICE_STATUS :=
  mkStatus (dwServiceType s) (dwCurrentState s) v (dwWin32ExitCode s)
           (dwServiceSpecificExitCode s) (dwCheckPoint s) (dwWaitHint s).

(** [controlsAccepted] is a bit set; [accepts s bit] tests one member. *)
Definition accepts (s : SERVICE_STATUS) (bit : DWORD) : bool :=
  Z.land (dwControlsAccepted s) bit =? bit.

(** ** Calls that leave the program *)

Inductive Event :=
| EvRegisterServiceCtrlHandler (name : string)
| EvSetServiceStatus (h : SERVICE_STATUS_HANDLE) (s : SERVICE_STATUS)
| EvSleep (ms : DWORD).

(** The two globals of lines 3-4 and the calls made so far, latest first. *)
Record World := mkWorld {
  serviceStatus : SERVICE_STATUS;
  serviceStatusHandle : SERVICE_STATUS_HANDLE;
  trace : list Event
}.

Definition zero_status : SERVICE_STATUS := mkStatus 0 0 0 0 0 0 0.

(** Globals have static storage: both start zeroed. *)
Definition initial_world : World := mkWorld zero_status 0 [].

Definition with_status (f : SERVICE_STATUS -> SERVICE_STATUS) (w : World) : World :=
  mkWorld (f (serviceStatus w)) (serviceStatusHandle w) (trace w).

Definition with_handle (h : SERVICE_STATUS_HANDLE) (w : World) : World :=
  mkWorld (serviceStatus w) h (trace w).

Definition emit (e : Event) (w : World) : World :=
  mkWorld (serviceStatus w) (serviceStatusHandle w) (e :: trace w).

(** [SetServiceStatus(h, &s)]: the SCM is handed a copy of the record.  The
    program drops the BOOL it returns. *)
Definition SetServiceStatus (h : SERVICE_STATUS_HANDLE) (s : SERVICE_STATUS)
  (w : World) : World :=
  emit (EvSetServiceStatus h s) w.

(** [Sleep(ms)]. *)
Definition Sleep (ms : DWORD) (w : World) : World := emit (EvSleep ms) w.

(** [RegisterServiceCtrlHandler(name, handler)]: [answer] is the handle the
    SCM gives back, [NULL_HANDLE] when it refuses. *)
Definition RegisterServiceCtrlHandler (name : string)
  (answer : SERVICE_STATUS_HANDLE) (w : World) : SERVICE_STATUS_HANDLE * World :=
  (answer, emit (EvRegisterServiceCtrlHandler name) w).

(** The reports made so far, latest first. *)
Fixpoint reports (t : list Event) : list (SERVICE_STATUS_HANDLE * SERVICE_STATUS) :=
  match t with
  | [] => []
  | EvSetServiceStatus h s :: t' => (h, s) :: reports t'
  | _ :: t' => reports t'
  end.

(** How many times [Sleep] was called. *)
Fixpoint sleeps (t : list Event) : nat :=
  match t with
  | [] => O
  | EvSleep _ :: t' => S (sleeps t')
  | _ :: t' => sleeps t'
  end.

(** * Part 1: the routines, one at a time *)

(** Lines 6-11. *)
Definition ServiceCtrlHandler (ctrlCode : DWORD) (w : World) : World :=
  if ctrlCode =? SERVICE_CONTROL_STOP then
    let w1 := with_status (set_dwCurrentState SERVICE_STOPPED) w in
    SetServiceStatus (serviceStatusHandle w1) (serviceStatus w1) w1
  else w.

(** Lines 14-23: [ServiceMain] up to its loop.  [answer] is what the SCM
    returns from the registration; it is stored and never looked at. *)
Definition ServiceMain_startup (answer : SERVICE_STATUS_HANDLE) (w : World) : World :=
  let (h, w1) := RegisterServiceCtrlHandler "MyService" answer w in
  let w2 := with_handle h w1 in
  let w3 := with_status (set_dwServiceType SERVICE_WIN32_OWN_PROCESS) w2 in
  let w4 := with_status (set_dwCurrentState SERVICE_RUNNING) w3 in
  let w5 := with_status (set_dwControlsAccepted SERVICE_ACCEPT_STOP) w4 in
  SetServiceStatus (serviceStatusHandle w5) (serviceStatus w5) w5.

(** Line 26: the loop condition. *)
Definition loop_condition (w : World) : bool :=
  dwCurrentState (serviceStatus w) =? SERVICE_RUNNING.

(** * Part 2: two threads over the shared globals *)

(** Where the service thread stands in [ServiceMain]: the line it runs next. *)
Inductive SvcPc := S14 | S19 | S20 | S21 | S23 | S26 | S27 | SRet.

(** Where the dispatcher thread stands: idle, or inside [ServiceCtrlHandler]
    before line 7 (holding the argument), line 8 or line 9. *)
Inductive CtlPc := CIdle | C7 (ctrlCode : DWORD) | C8 | C9.

Record Machine := mkMachine {
  world : World;
  svc : SvcPc;
  ctl : CtlPc;
  (** what the SCM will answer to the registration on line 14 *)
  scm_answer : SERVICE_STATUS_HANDLE
}.

Definition upd_world (f : World -> World) (m : Machine) : Machine :=
  mkMachine (f (world m)) (svc m) (ctl m) (scm_answer m).

Definition goto_svc (pc : SvcPc) (m : Machine) : Machine :=
  mkMachine (world m) pc (ctl m) (scm_answer m).

Definition goto_ctl (pc : CtlPc) (m : Machine) : Machine :=
  mkMachine (world m) (svc m) pc (scm_answer m).

(** One statement of [ServiceMain].  On line 14 the call and the store of
    its result are one step, so the runs leave out a handler call that
    falls between the two and would read the handle as it was at entry;
    nothing below is stated about the handle such a call reports on.  Line
    26 is one evaluation of the condition, line 27 one call of [Sleep]. *)
Definition step_svc (m : Machine) : Machine :=
  match svc m with
  | S14 =>
      let (h, w1) := RegisterServiceCtrlHandler "MyService" (scm_answer m) (world m) in
      goto_svc S19 (upd_world (fun _ => with_handle h w1) m)
  | S19 =>
      goto_svc S20
        (upd_world (with_status (set_dwServiceType SERVICE_WIN32_OWN_PROCESS)) m)
  | S20 =>
      goto_svc S21 (upd_world (with_status (set_dwCurrentState SERVICE_RUNNING)) m)
  | S21 =>
      goto_svc S23
        (upd_world (with_status (set_dwControlsAccepted SERVICE_ACCEPT_STOP)) m)
  | S23 =>
      goto_svc S26
        (upd_world (fun w => SetServiceStatus (serviceStatusHandle w) (serviceStatus w) w) m)
  | S26 =>
      if loop_condition (world m) then goto_svc S27 m else goto_svc SRet m
  | S27 => goto_svc S26 (upd_world (Sleep 1000) m)
  | SRet => m
  end.

(** One statement of [ServiceCtrlHandler]. *)
Definition step_ctl (m : Machine) : Machine :=
  match ctl m with
  | CIdle => m
  | C7 ctrlCode =>
      if ctrlCode =? SERVICE_CONTROL_STOP then goto_ctl C8 m else goto_ctl CIdle m
  | C8 =>
      goto_ctl C9 (upd_world (with_status (set_dwCurrentState SERVICE_STOPPED)) m)
  | C9 =>
      goto_ctl CIdle
        (upd_world (fun w => SetServiceStatus (serviceStatusHandle w) (serviceStatus w) w) m)
  end.

(** The handler can be called once line 14 has run and the SCM accepted it. *)
Definition handler_installed (m : Machine) : bool :=
  match svc m with
  | S14 => false
  | _ => negb (scm_answer m =? NULL_HANDLE)
  end.

(** The SCM hands a control code to the dispatcher thread, which enters the
    handler.  Calls are serial: a code that arrives while the handler runs,
    or before there is a handler, is not taken. *)
Definition deliver (ctrlCode : DWORD) (m : Machine) : Machine :=
  match ctl m with
  | CIdle => if handler_installed m then goto_ctl (C7 ctrlCode) m else m
  | _ => m
  end.

Inductive Action :=
| Svc                       (* the service thread runs one statement *)
| Deliver (ctrlCode : DWORD) (* a control code arrives *)
| Ctl.                      (* the dispatcher thread runs one statement *)

Definition act (a : Action) (m : Machine) : Machine :=
  match a with
  | Svc => step_svc m
  | Deliver c => deliver c m
  | Ctl => step_ctl m
  end.

Definition Schedule := list Action.

Fixpoint run (s : Schedule) (m : Machine) : Machine :=
  match s with
  | [] => m
  | a :: s' => run s' (act a m)
  end.

(** [ServiceMain] is entered with the dispatcher idle. *)
Definition boot (answer : SERVICE_STATUS_HANDLE) (w : World) : Machine :=
  mkMachine w S14 CIdle answer.

(** Lines 13-29 against a host: [ServiceMain] is entered, the schedule is
    played, and the routine has either returned, leaving a world, or is
    still in its loop when the schedule ends. *)
Definition ServiceMain (answer : SERVICE_STATUS_HANDLE) (s : Schedule) (w : World)
  : option World :=
  let m := run s (boot answer w) in
  match svc m with
  | SRet => Some (world m)
  | _ => None
  end.

(** A whole handler call with nothing in between. *)
Definition handle_now (ctrlCode : DWORD) : Schedule := [Deliver ctrlCode; Ctl; Ctl; Ctl].

(** Steps of the service thread in a schedule. *)
Fixpoint ticks (s : Schedule) : nat :=
  match s with
  | [] => O
  | Svc :: s' => S (ticks s')
  | _ :: s' => ticks s'
  end.

Definition is_stop (a : Action) : bool :=
  match a with
  | Deliver c => c =? SERVICE_CONTROL_STOP
  | _ => false
  end.

(** No Stop arrives in the schedule. *)
Definition stop_free (s : Schedule) : bool := forallb (fun a => negb (is_stop a)) s.

Definition in_loop (m : Machine) : bool :=
  match svc m with
  | S26 | S27 => true
  | _ => false
  end.

Definition returned (m : Machine) : bool :=
  match svc m with
  | SRet => true
  | _ => false
  end.

Definition current_state (m : Machine) : DWORD := dwCurrentState (serviceStatus (world m)).

(** ** The process entry point *)

Record SERVICE_TABLE_ENTRY := mkEntry {
  lpServiceName : option string;
  (** the only routine ever put in a table is [ServiceMain] *)
  lpServiceProc : option unit
}.

(** Lines 32-35. *)
Definition serviceTable : list SERVICE_TABLE_ENTRY :=
  [ mkEntry (Some "MyService"%string) (Some tt); mkEntry None None ].

(** What a call of [StartServiceCtrlDispatcher] can do: come back with a
    BOOL and a world, or not come back. *)
Definition Dispatcher := list SERVICE_TABLE_ENTRY -> World -> option (BOOL * World).

(** Lines 31-39, for any behaviour of the dispatcher. *)
Definition main_with (StartServiceCtrlDispatcher : Dispatcher) (w : World)
  : option (Z * World) :=
  match StartServiceCtrlDispatcher serviceTable w with
  | Some (_, w') => Some (0, w')
  | None => None
  end.

(** The host a run is played against. *)
Record Host := mkHost {
  connects : bool;                   (* started by the SCM, or from a console *)
  answer : SERVICE_STATUS_HANDLE;    (* the SCM's answer to the registration *)
  schedule : Schedule                (* the interleaving and the arrivals *)
}.

(** The dispatcher of a host.  Outside the SCM it fails at once and never
    calls [ServiceMain].  Under the SCM it runs the first entry's routine
    against the schedule, and comes back when that routine has returned; if
    the schedule ends with the routine still running it has not come back. *)
Definition StartServiceCtrlDispatcher (host : Host) : Dispatcher :=
  fun table w =>
    if connects host then
      match table with
      | {| lpServiceProc := Some _ |} :: _ =>
          match ServiceMain (answer host) (schedule host) w with
          | Some w' => Some (TRUE, w')
          | None => None
          end
      | _ => Some (FALSE, w)
      end
    else Some (FALSE, w).

Definition main (host : Host) (w : World) : option (Z * World) :=
  main_with (StartServiceCtrlDispatcher host) w.

(** * Notions used in the statements *)

(** The service thread is in its loop or past it, and the record says
    Stopped. *)
Definition stopped_late (m : Machine) : Prop :=
  current_state m = SERVICE_STOPPED /\ (in_loop m || returned m = true).

(** Calls of [Sleep] the service thread is already committed to. *)
Definition sleep_due (m : Machine) : nat :=
  match svc m with
  | S27 => 1
  | _ => 0
  end.

(** Statements the service thread still runs before it returns, when the
    record says Stopped. *)
Definition steps_to_return (m : Machine) : nat :=
  match svc m with
  | S27 => 2
  | S26 => 1
  | _ => 0
  end.

(** The dispatcher is idle, or in a handler call that will do nothing. *)
Definition quiet (m : Machine) : Prop :=
  match ctl m with
  | CIdle => True
  | C7 c => c <> SERVICE_CONTROL_STOP
  | _ => False
  end.

(** Statements of the service thread before it stands at line 26. *)
Definition startup_left (pc : SvcPc) : option nat :=
  match pc with
  | S14 => Some 5%nat
  | S19 => Some 4%nat
  | S20 => Some 3%nat
  | S21 => Some 2%nat
  | S23 => Some 1%nat
  | S26 => Some 0%nat
  | _ => None
  end.

(** Statements of the service thread up to and with its first evaluation of
    the loop condition. *)
Definition to_first_check (pc : SvcPc) : nat :=
  match startup_left pc with
  | Some n => S n
  | None => O
  end.

(** The record [ServiceMain] sets up on lines 19-21. *)
Definition started (s : SERVICE_STATUS) : SERVICE_STATUS :=
  set_dwControlsAccepted SERVICE_ACCEPT_STOP
    (set_dwCurrentState SERVICE_RUNNING
       (set_dwServiceType SERVICE_WIN32_OWN_PROCESS s)).

(** The Stop comes right after the registration, before line 19. *)
Definition early_stop : Schedule :=
  [Svc] ++ handle_now SERVICE_CONTROL_STOP ++ repeat Svc 5.

(** The Stop comes after line 20 and before line 21. *)
Definition stop_after_line_20 : Schedule :=
  repeat Svc 3 ++ handle_now SERVICE_CONTROL_STOP ++ repeat Svc 3.

(** The service starts up, and the Stop is handled right after the Running
    report, before the loop condition is first evaluated. *)
Definition immediate_stop : Schedule :=
  repeat Svc 5 ++ handle_now SERVICE_CONTROL_STOP ++ [Svc].

(** ** Notions for whole runs *)

(** The record as [ServiceMain] has written it when it stands at [pc],
    starting from [r]. *)
Definition init_upto (pc : SvcPc) (r : SERVICE_STATUS) : SERVICE_STATUS :=
  match pc with
  | S14 | S19 => r
  | S20 => set_dwServiceType SERVICE_WIN32_OWN_PROCESS r
  | S21 => set_dwCurrentState SERVICE_RUNNING
             (set_dwServiceType SERVICE_WIN32_OWN_PROCESS r)
  | _ => started r
  end.

(** What holds of a machine started by [boot h w] with [r0] the record of
    [w]: the record is what [ServiceMain] wrote so far, possibly with
    Stopped put in by the handler; without a handler only the former; once
    [ServiceMain] has returned only the latter. *)
Definition tracks (h : SERVICE_STATUS_HANDLE) (r0 : SERVICE_STATUS) (m : Machine) : Prop :=
  scm_answer m = h /\
  (handler_installed m = false ->
   ctl m = CIdle /\ serviceStatus (world m) = init_upto (svc m) r0) /\
  (serviceStatus (world m) = init_upto (svc m) r0 \/
   serviceStatus (world m) = set_dwCurrentState SERVICE_STOPPED (init_upto (svc m) r0)) /\
  (svc m = SRet ->
   serviceStatus (world m) = set_dwCurrentState SERVICE_STOPPED (started r0)).

(** Line 20 has run. *)
Definition past_line_20 (pc : SvcPc) : bool :=
  match pc with
  | S14 | S19 | S20 => false
  | _ => true
  end.

(** The record says Stopped and line 20 has run: nothing will write
    Running any more. *)
Definition stopped_for_good (m : Machine) : Prop :=
  current_state m = SERVICE_STOPPED /\ past_line_20 (svc m) = true.

(** Statements the service thread still runs before it returns, when the
    record says Stopped and line 20 has run. *)
Definition steps_to_exit (m : Machine) : nat :=
  match svc m with
  | S21 => 3
  | S23 => 2
  | S27 => 2
  | S26 => 1
  | _ => 0
  end.

Definition running_or_stopped (s : SERVICE_STATUS) : Prop :=
  dwCurrentState s = SERVICE_RUNNING \/ dwCurrentState s = SERVICE_STOPPED.

(** The calls this program makes.  Nothing is said of the handle of a
    report: line 9 reads the global, which line 14 assigns only when the
    registration has come back. *)
Definition ok_event (e : Event) : Prop :=
  match e with
  | EvRegisterServiceCtrlHandler name => name = "MyService"%string
  | EvSetServiceStatus _ s => running_or_stopped s
  | EvSleep ms => ms = 1000
  end.

(** What holds of the calls made by a machine started by [boot h w] with
    [t0] the trace of [w]. *)
Definition calls_well (h : SERVICE_STATUS_HANDLE) (t0 : list Event) (m : Machine) : Prop :=
  scm_answer m = h /\
  (svc m = S14 -> ctl m = CIdle) /\
  (svc m <> S14 -> serviceStatusHandle (world m) = h) /\
  (past_line_20 (svc m) = true -> running_or_stopped (serviceStatus (world m))) /\
  (ctl m = C9 -> running_or_stopped (serviceStatus (world m))) /\
  exists new, trace (world m) = new ++ t0 /\ Forall ok_event new.

(** The handler called on each code of a list in turn. *)
Definition handle_all (codes : list DWORD) (w : World) : World :=
  fold_left (fun w' c => ServiceCtrlHandler c w') codes w.

(** How many codes of a list are Stop. *)
Definition stops (codes : list DWORD) : nat :=
  List.length (filter (fun c => c =? SERVICE_CONTROL_STOP) codes).

(** The latest report tells the record as it is now.  This is claimed of
    machines whose service thread is past line 23 and whose dispatcher is
    not between lines 8 and 9. *)
Definition synced (m : Machine) : Prop :=
  in_loop m || returned m = true -> ctl m <> C9 ->
  hd_error (reports (trace (world m)))
    = Some (serviceStatusHandle (world m), serviceStatus (world m)).

Definition is_registration (e : Event) : bool :=
  match e with
  | EvRegisterServiceCtrlHandler _ => true
  | _ => false
  end.

(** The registration is the oldest call made since [t0], and the only
    registration. *)
Definition registered_first (t0 : list Event) (m : Machine) : Prop :=
  (svc m = S14 -> ctl m = CIdle /\ trace (world m) = t0) /\
  (svc m <> S14 ->
   exists rest,
     trace (world m) = rest ++ EvRegisterServiceCtrlHandler "MyService" :: t0 /\
     forallb (fun e => negb (is_registration e)) rest = true).

(** * Proof tactics *)

Ltac case_svc m :=
  let E := fresh "Epc" in
  unfold step_svc; destruct (svc m) eqn:E; try discriminate; cbn; rewrite ?E.

Ltac case_ctl m :=
  let E := fresh "Epc" in
  unfold step_ctl; destruct (ctl m) as [|?c| |] eqn:E; try discriminate; cbn;
  try match goal with |- context [?c =? SERVICE_CONTROL_STOP] =>
        destruct (Z.eqb_spec c SERVICE_CONTROL_STOP) end; cbn; rewrite ?E.

(** The record follows the service thread, with or without Stopped in it. *)
Ltac follow Hrec :=
  destruct Hrec as [Hrec|Hrec]; rewrite Hrec;
  first [left; reflexivity | right; reflexivity].

(** * Basic facts *)

Lemma set_dwCurrentState_same (s : SERVICE_STATUS) :
  set_dwCurrentState (dwCurrentState s) s = s.
Proof. destruct s; reflexivity. Qed.

Lemma run_app (s1 s2 : Schedule) (m : Machine) :
  run (s1 ++ s2) m = run s2 (run s1 m).
Proof.
  revert m; induction s1 as [|a s1 IH]; intro m; simpl.
  - reflexivity.
  - apply IH.
Qed.

(** Only the service thread moves [svc]; only the dispatcher moves [ctl]. *)
Lemma step_ctl_svc (m : Machine) : svc (step_ctl m) = svc m.
Proof.
  unfold step_ctl; destruct (ctl m) as [|c| |]; try reflexivity.
  destruct (c =? SERVICE_CONTROL_STOP); reflexivity.
Qed.

Lemma deliver_svc (c : DWORD) (m : Machine) : svc (deliver c m) = svc m.
Proof.
  unfold deliver; destruct (ctl m); try reflexivity.
  destruct (handler_installed m); reflexivity.
Qed.

Lemma deliver_world (c : DWORD) (m : Machine) : world (deliver c m) = world m.
Proof.
  unfold deliver; destruct (ctl m); try reflexivity.
  destruct (handler_installed m); reflexivity.
Qed.

Lemma step_svc_ctl (m : Machine) : ctl (step_svc m) = ctl m.
Proof.
  unfold step_svc; destruct (svc m); try reflexivity.
  destruct (loop_condition (world m)); reflexivity.
Qed.

(** ** The machine runs the routines of Part 1 *)

(** An uninterrupted handler call is [ServiceCtrlHandler]. *)
Lemma handle_now_is_ServiceCtrlHandler (c : DWORD) (m : Machine) :
  handler_installed m = true -> ctl m = CIdle ->
  run (handle_now c) m = upd_world (ServiceCtrlHandler c) m.
Proof.
  intros Hin Hidle. destruct m as [w pc cp h]; simpl in Hidle; subst cp.
  unfold handle_now, ServiceCtrlHandler; cbn [run act].
  unfold deliver; cbn [ctl]; rewrite Hin.
  unfold step_ctl, goto_ctl; cbn [ctl].
  destruct (c =? SERVICE_CONTROL_STOP); reflexivity.
Qed.

(** Five uninterrupted statements from the start are [ServiceMain_startup],
    and leave the service thread at the loop condition. *)
Lemma startup_is_ServiceMain_startup (h : SERVICE_STATUS_HANDLE) (w : World) :
  run (repeat Svc 5) (boot h w) = mkMachine (ServiceMain_startup h w) S26 CIdle h.
Proof. reflexivity. Qed.

(** * The control handler *)

Section Handler.

Variable w : World.

(** C2.  Handling Stop, from any world: the record becomes the old one
    with [dwCurrentState] set to [SERVICE_STOPPED]; then exactly one call
    is added to the trace, a [SetServiceStatus] on the stored handle that
    carries the record as just updated. *)
Theorem ServiceCtrlHandler_stop :
  let w' := ServiceCtrlHandler SERVICE_CONTROL_STOP w in
  serviceStatus w' = set_dwCurrentState SERVICE_STOPPED (serviceStatus w) /\
  dwCurrentState (serviceStatus w') = SERVICE_STOPPED /\
  serviceStatusHandle w' = serviceStatusHandle w /\
  trace w' = EvSetServiceStatus (serviceStatusHandle w) (serviceStatus w') :: trace w.
Proof.
  cbv zeta. unfold ServiceCtrlHandler. rewrite Z.eqb_refl.
  repeat split.
Qed.

(** C4.  A control code other than Stop leaves the whole world as it was:
    every field of the record, the handle, and the trace, so no report is
    made. *)
Theorem ServiceCtrlHandler_other (ctrlCode : DWORD) :
  ctrlCode <> SERVICE_CONTROL_STOP -> ServiceCtrlHandler ctrlCode w = w.
Proof.
  intro Hne. unfold ServiceCtrlHandler.
  destruct (Z.eqb_spec ctrlCode SERVICE_CONTROL_STOP) as [Heq|_].
  - contradiction.
  - reflexivity.
Qed.

(** C9.  Whatever the control code, a handler call keeps every field of
    the record but [dwCurrentState], and the handle; the record is either
    untouched or has [SERVICE_STOPPED] written to [dwCurrentState].  The
    same holds for each single statement of the handler in the machine. *)
Theorem ServiceCtrlHandler_frame (ctrlCode : DWORD) :
  let w' := ServiceCtrlHandler ctrlCode w in
  dwServiceType (serviceStatus w') = dwServiceType (serviceStatus w) /\
  dwControlsAccepted (serviceStatus w') = dwControlsAccepted (serviceStatus w) /\
  dwWin32ExitCode (serviceStatus w') = dwWin32ExitCode (serviceStatus w) /\
  dwServiceSpecificExitCode (serviceStatus w') = dwServiceSpecificExitCode (serviceStatus w) /\
  dwCheckPoint (serviceStatus w') = dwCheckPoint (serviceStatus w) /\
  dwWaitHint (serviceStatus w') = dwWaitHint (serviceStatus w) /\
  serviceStatusHandle w' = serviceStatusHandle w /\
  (serviceStatus w' = serviceStatus w \/ serviceStatus w' = set_dwCurrentState SERVICE_STOPPED (serviceStatus w)) /\
  (forall m : Machine,
      serviceStatusHandle (world (step_ctl m)) = serviceStatusHandle (world m) /\
      (serviceStatus (world (step_ctl m)) = serviceStatus (world m) \/
       serviceStatus (world (step_ctl m)) =
         set_dwCurrentState SERVICE_STOPPED (serviceStatus (world m)))).
Proof.
  cbv zeta. unfold ServiceCtrlHandler.
  destruct (ctrlCode =? SERVICE_CONTROL_STOP).
  - repeat split; auto.
    all: unfold step_ctl; destruct (ctl m) as [|c| |]; auto;
      destruct (c =? SERVICE_CONTROL_STOP); auto.
  - repeat split; auto.
    all: unfold step_ctl; destruct (ctl m) as [|c| |]; auto;
      destruct (c =? SERVICE_CONTROL_STOP); auto.
Qed.

(** C5.  Two Stops in a row: the record after the second call is the
    record after the first, still Stopped, and the second call does
    nothing but one more report of that record.  In the machine the two
    calls run to completion: the dispatcher is idle again afterwards. *)
Theorem ServiceCtrlHandler_stop_twice :
  let w1 := ServiceCtrlHandler SERVICE_CONTROL_STOP w in
  let w2 := ServiceCtrlHandler SERVICE_CONTROL_STOP w1 in
  serviceStatus w2 = serviceStatus w1 /\
  dwCurrentState (serviceStatus w2) = SERVICE_STOPPED /\
  serviceStatusHandle w2 = serviceStatusHandle w1 /\
  trace w2 = EvSetServiceStatus (serviceStatusHandle w1) (serviceStatus w1) :: trace w1 /\
  (forall m : Machine,
      world m = w -> handler_installed m = true -> ctl m = CIdle ->
      let m2 := run (handle_now SERVICE_CONTROL_STOP ++ handle_now SERVICE_CONTROL_STOP) m in
      world m2 = w2 /\ ctl m2 = CIdle /\ svc m2 = svc m).
Proof.
  cbv zeta. unfold ServiceCtrlHandler at 1 3 5 7 9. rewrite Z.eqb_refl.
  repeat split.
  all: rewrite run_app, (handle_now_is_ServiceCtrlHandler _ m), handle_now_is_ServiceCtrlHandler;
    subst; auto.
Qed.

End Handler.

(** * Invariants of runs *)

(** What every action keeps, every schedule keeps. *)
Lemma run_preserves (P : Machine -> Prop) :
  (forall a m, P m -> P (act a m)) ->
  forall s m, P m -> P (run s m).
Proof.
  intros Hstep s; induction s as [|a s IH]; intros m Hm; simpl.
  - exact Hm.
  - apply IH, Hstep, Hm.
Qed.

(** ** Once Stopped in the loop *)

Lemma stopped_late_act (a : Action) (m : Machine) :
  stopped_late m ->
  stopped_late (act a m) /\
  serviceStatus (world (act a m)) = serviceStatus (world m) /\
  serviceStatusHandle (world (act a m)) = serviceStatusHandle (world m) /\
  (sleeps (trace (world (act a m))) + sleep_due (act a m) =
     sleeps (trace (world m)) + sleep_due m)%nat /\
  (steps_to_return (act a m) <= steps_to_return m)%nat.
Proof.
  unfold stopped_late, current_state, in_loop, returned, sleep_due, steps_to_return.
  intros [Hst Hpc]. destruct a as [|c|]; cbn [act].
  - case_svc m; unfold loop_condition; try rewrite Hst; cbn; repeat split; auto; lia.
  - rewrite deliver_world, deliver_svc. repeat split; auto.
  - rewrite step_ctl_svc. case_ctl m; try rewrite Hst; repeat split; auto.
    all: rewrite <- Hst; apply set_dwCurrentState_same.
Qed.

Lemma stopped_late_tick (m : Machine) :
  stopped_late m -> (steps_to_return (step_svc m) = pred (steps_to_return m))%nat.
Proof.
  unfold stopped_late, current_state, in_loop, returned, steps_to_return.
  intros [Hst Hpc]. case_svc m; auto.
  unfold loop_condition; rewrite Hst; reflexivity.
Qed.

Lemma stopped_late_run (s : Schedule) :
  forall m, stopped_late m ->
  stopped_late (run s m) /\
  serviceStatus (world (run s m)) = serviceStatus (world m) /\
  serviceStatusHandle (world (run s m)) = serviceStatusHandle (world m) /\
  (sleeps (trace (world (run s m))) + sleep_due (run s m) =
     sleeps (trace (world m)) + sleep_due m)%nat /\
  (steps_to_return (run s m) <= steps_to_return m - ticks s)%nat.
Proof.
  induction s as [|a s IH]; intros m Hm; cbn [run ticks].
  - repeat split; auto; try apply Hm. lia.
  - destruct (stopped_late_act a m Hm) as (Hm' & Hrec & Hh & Hsl & Hle).
    destruct (IH _ Hm') as (Hfin & Hrec' & Hh' & Hsl' & Hle').
    repeat split; try apply Hfin; try congruence; try lia.
    destruct a; cbn [act] in *; try lia.
    rewrite (stopped_late_tick m Hm) in Hle'. lia.
Qed.


(** ** Schedules without a Stop *)

(** The service thread does not look at the dispatcher. *)
Lemma step_svc_goto_ctl (pc : CtlPc) (m : Machine) :
  step_svc (goto_ctl pc m) = goto_ctl pc (step_svc m).
Proof.
  destruct m as [w [] cp h]; unfold step_svc, goto_ctl; cbn; try reflexivity.
  destruct (loop_condition w); reflexivity.
Qed.

Lemma run_svc_goto_ctl (n : nat) (pc : CtlPc) :
  forall m, run (repeat Svc n) (goto_ctl pc m) = goto_ctl pc (run (repeat Svc n) m).
Proof.
  induction n as [|n IH]; intro m; cbn [repeat run act].
  - reflexivity.
  - rewrite step_svc_goto_ctl. apply IH.
Qed.

(** A quiet dispatcher only moves itself. *)
Lemma quiet_act (a : Action) (m : Machine) :
  quiet m -> is_stop a = false -> a <> Svc ->
  exists pc, act a m = goto_ctl pc m /\ quiet (goto_ctl pc m).
Proof.
  unfold quiet. intros Hq Hns Hsvc. destruct a as [|c|]; cbn [act is_stop] in *.
  - congruence.
  - apply Z.eqb_neq in Hns. unfold deliver.
    destruct (ctl m) as [|c'| |] eqn:E; try contradiction.
    + destruct (handler_installed m).
      * exists (C7 c); split; [reflexivity | exact Hns].
      * exists CIdle; split; [destruct m; unfold goto_ctl; cbn in *; congruence | exact I].
    + exists (C7 c'); split; [destruct m; unfold goto_ctl; cbn in *; congruence | exact Hq].
  - unfold step_ctl. destruct (ctl m) as [|c'| |] eqn:E; try contradiction.
    + exists CIdle; split; [destruct m; unfold goto_ctl; cbn in *; congruence | exact I].
    + destruct (Z.eqb_spec c' SERVICE_CONTROL_STOP); [contradiction|].
      exists CIdle; split; [reflexivity | exact I].
Qed.

(** With no Stop in it, a schedule does to the world and to the service
    thread what the service thread's own steps do. *)
Lemma stop_free_run (s : Schedule) :
  forall m, quiet m -> stop_free s = true ->
  world (run s m) = world (run (repeat Svc (ticks s)) m) /\
  svc (run s m) = svc (run (repeat Svc (ticks s)) m) /\
  quiet (run s m).
Proof.
  induction s as [|a s IH]; intros m Hq Hsf; cbn [run ticks repeat].
  - auto.
  - cbn [stop_free forallb] in Hsf. apply andb_true_iff in Hsf as [Ha Hs].
    apply negb_true_iff in Ha.
    destruct a as [|c|].
    + cbn [act repeat run]. apply IH; auto.
      unfold quiet in *. rewrite step_svc_ctl. exact Hq.
    + destruct (quiet_act (Deliver c) m Hq Ha) as (pc & -> & Hq'); [discriminate|].
      destruct (IH _ Hq' Hs) as (Hw & Hp & Hfin).
      rewrite run_svc_goto_ctl in Hw, Hp. auto.
    + destruct (quiet_act Ctl m Hq Ha) as (pc & -> & Hq'); [discriminate|].
      destruct (IH _ Hq' Hs) as (Hw & Hp & Hfin).
      rewrite run_svc_goto_ctl in Hw, Hp. auto.
Qed.

(** ** The way to the loop *)

(** Nothing between line 14 and line 26 branches: under any schedule the
    service thread reaches the loop after its five statements. *)
Lemma startup_reaches_loop (s : Schedule) :
  forall m n, startup_left (svc m) = Some n -> ticks s = n -> svc (run s m) = S26.
Proof.
  induction s as [|a s IH]; intros m n Hleft Hticks; cbn [run ticks] in *.
  - subst n. destruct (svc m); cbn in Hleft; congruence.
  - destruct a as [|c|]; cbn [act].
    + destruct n as [|n]; [discriminate|]. apply (IH _ n); [|congruence].
      revert Hleft. case_svc m; cbn; congruence.
    + apply (IH _ n); auto. rewrite deliver_svc; exact Hleft.
    + apply (IH _ n); auto. rewrite step_ctl_svc; exact Hleft.
Qed.

(** A service thread left alone in its loop while the record says Running
    sleeps on. *)
Lemma running_loop_goes_on (n : nat) :
  forall m, in_loop m = true -> current_state m = SERVICE_RUNNING ->
  in_loop (run (repeat Svc n) m) = true /\
  current_state (run (repeat Svc n) m) = SERVICE_RUNNING.
Proof.
  induction n as [|n IH]; intros m Hl Hr; cbn [repeat run act].
  - auto.
  - assert (Hstep : in_loop (step_svc m) = true /\
                    current_state (step_svc m) = SERVICE_RUNNING).
    { destruct m as [w pc cp h].
      unfold in_loop, current_state, step_svc, loop_condition in *.
      cbn [svc world] in *. destruct pc; try discriminate.
      - rewrite Hr. auto.
      - auto. }
    apply IH; apply Hstep.
Qed.

Lemma in_loop_not_returned (m : Machine) : in_loop m = true -> returned m = false.
Proof. unfold in_loop, returned; destruct (svc m); auto; discriminate. Qed.

(** A Stop handled with nothing in between leaves the record Stopped and
    the service thread where it was. *)
Lemma handle_stop_now (m : Machine) :
  handler_installed m = true -> ctl m = CIdle ->
  let m' := run (handle_now SERVICE_CONTROL_STOP) m in
  current_state m' = SERVICE_STOPPED /\ svc m' = svc m /\ ctl m' = CIdle /\
  world m' = ServiceCtrlHandler SERVICE_CONTROL_STOP (world m).
Proof.
  intros Hin Hidle; cbv zeta. rewrite handle_now_is_ServiceCtrlHandler by assumption.
  repeat split; auto.
Qed.

(** ** Once Stopped after line 20 *)

Lemma stopped_for_good_act (a : Action) (m : Machine) :
  stopped_for_good m ->
  stopped_for_good (act a m) /\
  (sleeps (trace (world (act a m))) + sleep_due (act a m) =
     sleeps (trace (world m)) + sleep_due m)%nat /\
  (steps_to_exit (act a m) <= steps_to_exit m)%nat.
Proof.
  unfold stopped_for_good, current_state, sleep_due, steps_to_exit.
  intros [Hst Hpc]. destruct a as [|c|]; cbn [act].
  - case_svc m; unfold loop_condition; try rewrite Hst; cbn; repeat split; auto; lia.
  - rewrite deliver_world, deliver_svc. repeat split; auto.
  - rewrite step_ctl_svc. case_ctl m; try rewrite Hst; repeat split; auto.
Qed.

Lemma stopped_for_good_tick (m : Machine) :
  stopped_for_good m -> steps_to_exit (step_svc m) = pred (steps_to_exit m).
Proof.
  unfold stopped_for_good, current_state, steps_to_exit.
  intros [Hst Hpc]. case_svc m; auto.
  unfold loop_condition; rewrite Hst; reflexivity.
Qed.

Lemma stopped_for_good_run (s : Schedule) :
  forall m, stopped_for_good m ->
  stopped_for_good (run s m) /\
  (sleeps (trace (world (run s m))) + sleep_due (run s m) =
     sleeps (trace (world m)) + sleep_due m)%nat /\
  (steps_to_exit (run s m) <= steps_to_exit m - ticks s)%nat.
Proof.
  induction s as [|a s IH]; intros m Hm; cbn [run ticks].
  - repeat split; try apply Hm. lia.
  - destruct (stopped_for_good_act a m Hm) as (Hm' & Hsl & Hle).
    destruct (IH _ Hm') as (Hfin & Hsl' & Hle').
    repeat split; try apply Hfin; try lia.
    destruct a; cbn [act] in *; try lia.
    rewrite (stopped_for_good_tick m Hm) in Hle'. lia.
Qed.

Lemma stopped_for_good_not_sleeping (s : Schedule) (m : Machine) :
  stopped_for_good m -> svc m <> S27 -> svc (run s m) <> S27.
Proof.
  intros Hm Hpc.
  apply (run_preserves (fun m => stopped_for_good m /\ svc m <> S27)); [|auto].
  clear. intros a m [Hm Hpc].
  split; [apply stopped_for_good_act, Hm|].
  destruct Hm as [Hst _]. unfold current_state in Hst.
  destruct a as [|c|]; cbn [act].
  - revert Hpc. case_svc m; try discriminate; auto.
    unfold loop_condition; rewrite Hst; discriminate.
  - rewrite deliver_svc; exact Hpc.
  - rewrite step_ctl_svc; exact Hpc.
Qed.

Lemma steps_to_exit_0 (m : Machine) :
  past_line_20 (svc m) = true -> steps_to_exit m = O -> returned m = true.
Proof.
  unfold past_line_20, returned, steps_to_exit; destruct (svc m); auto; discriminate.
Qed.

Lemma past_line_20_run (s : Schedule) (m : Machine) :
  past_line_20 (svc m) = true -> past_line_20 (svc (run s m)) = true.
Proof.
  apply (run_preserves (fun m => past_line_20 (svc m) = true)); clear.
  intros [|c|] m; cbn [act].
  - case_svc m; auto. destruct (loop_condition (world m)); auto.
  - rewrite deliver_svc; auto.
  - rewrite step_ctl_svc; auto.
Qed.

(** * The service routine *)

Section Startup.

Variables (h : SERVICE_STATUS_HANDLE) (w : World).

(** C3.  When lines 14-23 have run, [dwCurrentState] is Running,
    [dwControlsAccepted] has the Stop bit, and the latest call in the
    trace is the report of that very record on the handle just obtained;
    the service thread then stands before its first evaluation of the
    loop condition, which holds.  The same world is reached under every
    schedule that brings no Stop during these five statements. *)
Theorem ServiceMain_startup_running :
  let w' := ServiceMain_startup h w in
  dwCurrentState (serviceStatus w') = SERVICE_RUNNING /\
  accepts (serviceStatus w') SERVICE_ACCEPT_STOP = true /\
  serviceStatus w' = started (serviceStatus w) /\
  serviceStatusHandle w' = h /\
  trace w' = EvSetServiceStatus h (serviceStatus w')
               :: EvRegisterServiceCtrlHandler "MyService" :: trace w /\
  loop_condition w' = true /\
  (forall s : Schedule,
      stop_free s = true -> ticks s = 5%nat ->
      world (run s (boot h w)) = w' /\ svc (run s (boot h w)) = S26).
Proof.
  cbv zeta. do 6 (split; [reflexivity|]).
  intros s Hsf Hticks.
  destruct (stop_free_run s (boot h w) I Hsf) as (Hw & Hp & _).
  rewrite Hticks, startup_is_ServiceMain_startup in Hw, Hp.
  split; assumption.
Qed.

(** C7.  The handle returned by the registration is stored and never
    tested.  Whatever it is, the null handle of a failed registration
    included, the routine writes the same three fields, reports on that
    handle, and after six statements is inside the loop body; under any
    schedule its five first statements bring it to the loop. *)
Theorem registration_result_unchecked :
  let w' := ServiceMain_startup h w in
  serviceStatus w' = started (serviceStatus w) /\
  reports (trace w') = (h, started (serviceStatus w)) :: reports (trace w) /\
  run (repeat Svc 6) (boot h w) = mkMachine w' S27 CIdle h /\
  (forall s : Schedule, ticks s = 5%nat -> svc (run s (boot h w)) = S26).
Proof.
  cbv zeta. do 3 (split; [reflexivity|]).
  intros s Hs. apply (startup_reaches_loop s (boot h w) 5%nat); auto.
Qed.

End Startup.

(** * The run loop *)

(** C1, as stated, fails.  Registration succeeds with handle 7 and a Stop
    is handled at once, before line 19.  The handler reports Stopped; line
    20 then writes Running over it, the startup report says Running, and
    the first evaluation of the loop condition finds Running: the service
    thread is in the loop body and, left to itself, never returns. *)
Lemma early_stop_never_ends_loop :
  reports (trace (world (run early_stop (boot 7 initial_world)))) =
    [ (7, started zero_status);
      (7, set_dwCurrentState SERVICE_STOPPED zero_status) ] /\
  current_state (run early_stop (boot 7 initial_world)) = SERVICE_RUNNING /\
  svc (run early_stop (boot 7 initial_world)) = S27 /\
  forall n : nat,
    returned (run (early_stop ++ repeat Svc n) (boot 7 initial_world)) = false.
Proof.
  repeat split. intro n. rewrite run_app.
  apply in_loop_not_returned, running_loop_goes_on; reflexivity.
Qed.

(** C1, amended.  Let line 20 have run.  A Stop handled from then on
    leaves the record Stopped.  From any later moment at which the record
    says Stopped, and under every further schedule: the record stays
    Stopped; [Sleep] is called at most once more, and not at all unless
    the thread was about to call it; and the thread has returned as soon
    as it has run three statements, two if it was already in its loop
    (the end of the pending [Sleep] and the evaluation of the
    condition). *)
Theorem stop_past_line_20_ends_loop (m0 : Machine) (s1 s2 : Schedule) :
  past_line_20 (svc m0) = true ->
  (handler_installed m0 = true -> ctl m0 = CIdle ->
   current_state (run (handle_now SERVICE_CONTROL_STOP) m0) = SERVICE_STOPPED) /\
  (current_state (run s1 m0) = SERVICE_STOPPED ->
   current_state (run s2 (run s1 m0)) = SERVICE_STOPPED /\
   past_line_20 (svc (run s2 (run s1 m0))) = true /\
   (sleeps (trace (world (run s2 (run s1 m0))))
      <= S (sleeps (trace (world (run s1 m0)))))%nat /\
   (svc (run s1 m0) <> S27 ->
    sleeps (trace (world (run s2 (run s1 m0))))
      = sleeps (trace (world (run s1 m0)))) /\
   ((3 <= ticks s2)%nat -> returned (run s2 (run s1 m0)) = true) /\
   (in_loop (run s1 m0) = true -> (2 <= ticks s2)%nat ->
    returned (run s2 (run s1 m0)) = true)).
Proof.
  intro Hpast. split.
  - intros Hin Hidle. apply handle_stop_now; assumption.
  - intro Hst.
    assert (Hgood : stopped_for_good (run s1 m0)).
    { split; [exact Hst|]. apply past_line_20_run, Hpast. }
    destruct (stopped_for_good_run s2 _ Hgood) as ((Hst' & Hpc') & Hsl & Hle).
    split; [exact Hst'|]. split; [exact Hpc'|]. split; [|split; [|split]].
    + unfold sleep_due in Hsl.
      destruct (svc (run s1 m0)), (svc (run s2 (run s1 m0))); lia.
    + intro Hnot.
      pose proof (stopped_for_good_not_sleeping s2 _ Hgood Hnot) as Hnot'.
      unfold sleep_due in Hsl.
      destruct (svc (run s1 m0)); try contradiction;
        destruct (svc (run s2 (run s1 m0))); try contradiction; lia.
    + intro Hticks. apply steps_to_exit_0; [exact Hpc'|].
      unfold steps_to_exit in *. destruct (svc (run s1 m0)); lia.
    + intros Hloop Hticks. apply steps_to_exit_0; [exact Hpc'|].
      unfold steps_to_exit, in_loop in *.
      destruct (svc (run s1 m0)); try discriminate; lia.
Qed.

(** C8.  When line 26 finds the record Stopped the service thread returns
    without touching the world; under every schedule that follows it stays
    returned and neither the record nor the handle changes any more.  And
    no statement of the loop, whatever the record says, writes the record
    or the handle. *)
Theorem stopped_is_final (m : Machine) (s : Schedule) :
  svc m = S26 -> current_state m = SERVICE_STOPPED ->
  svc (step_svc m) = SRet /\
  world (step_svc m) = world m /\
  svc (run s (step_svc m)) = SRet /\
  serviceStatus (world (run s (step_svc m))) = serviceStatus (world m) /\
  serviceStatusHandle (world (run s (step_svc m))) = serviceStatusHandle (world m) /\
  (forall m' : Machine,
      in_loop m' = true ->
      serviceStatus (world (step_svc m')) = serviceStatus (world m') /\
      serviceStatusHandle (world (step_svc m')) = serviceStatusHandle (world m')).
Proof.
  intros Hpc Hst.
  assert (Hstep : step_svc m = goto_svc SRet m).
  { unfold step_svc, loop_condition. unfold current_state in Hst.
    rewrite Hpc, Hst. reflexivity. }
  assert (Hlate : stopped_late (step_svc m)).
  { rewrite Hstep. split; [exact Hst | reflexivity]. }
  destruct (stopped_late_run s _ Hlate) as ((_ & Hpc') & Hrec & Hh & _ & Hle).
  rewrite Hstep in *.
  do 2 (split; [reflexivity|]). split; [|split; [exact Hrec|split; [exact Hh|]]].
  - unfold steps_to_return, in_loop, returned in *. cbn [goto_svc svc] in Hle.
    destruct (svc (run s (goto_svc SRet m))); auto; cbn in *; try discriminate; lia.
  - intros m' Hloop. revert Hloop. unfold in_loop. case_svc m'; auto.
    destruct (loop_condition (world m')); auto.
Qed.

(** C10, as stated, fails.  Registration succeeds with handle 7; the Stop
    is handled when line 20 has run and line 21 has not, so the
    initialization is not complete ([dwControlsAccepted] is still 0).
    Nothing writes Running after the handler's write: line 23 reports
    Stopped, line 26 finds Stopped, and the routine returns without having
    called [Sleep]. *)
Lemma stop_after_line_20_sticks :
  svc (run (repeat Svc 3) (boot 7 initial_world)) = S21 /\
  dwControlsAccepted (serviceStatus (world (run (repeat Svc 3) (boot 7 initial_world)))) = 0 /\
  current_state (run stop_after_line_20 (boot 7 initial_world)) = SERVICE_STOPPED /\
  svc (run stop_after_line_20 (boot 7 initial_world)) = SRet /\
  sleeps (trace (world (run stop_after_line_20 (boot 7 initial_world)))) = O /\
  reports (trace (world (run stop_after_line_20 (boot 7 initial_world)))) =
    [ (7, set_dwCurrentState SERVICE_STOPPED (started zero_status));
      (7, mkStatus SERVICE_WIN32_OWN_PROCESS SERVICE_STOPPED 0 0 0 0 0) ].
Proof. repeat split. Qed.

(** C10, amended.  Line 20 writes Running whatever the record held.  So
    when a Stop is handled after the registration and before line 20 has
    run (the service thread stands at line 19 or 20), and no further Stop
    comes while the thread runs on through its first evaluation of the
    loop condition, the record says Running there and the thread is in the
    loop body; the trace shows the handler's Stopped report followed by
    the startup report, which carries that record and so says Running. *)
Theorem running_write_overwrites_early_stop (m : Machine) (s : Schedule) :
  (svc m = S20 -> current_state (step_svc m) = SERVICE_RUNNING) /\
  (handler_installed m = true -> ctl m = CIdle ->
   svc m = S19 \/ svc m = S20 ->
   stop_free s = true -> ticks s = to_first_check (svc m) ->
   let m1 := run (handle_now SERVICE_CONTROL_STOP) m in
   let m2 := run s m1 in
   current_state m1 = SERVICE_STOPPED /\
   current_state m2 = SERVICE_RUNNING /\
   svc m2 = S27 /\
   reports (trace (world m2)) =
     (serviceStatusHandle (world m), serviceStatus (world m2))
       :: (serviceStatusHandle (world m),
           set_dwCurrentState SERVICE_STOPPED (serviceStatus (world m)))
       :: reports (trace (world m))).
Proof.
  split.
  - intro Hpc. unfold step_svc, current_state. rewrite Hpc. reflexivity.
  - intros Hin Hidle Hpc Hsf Hticks; cbv zeta.
    destruct (handle_stop_now m Hin Hidle) as (Hst & Hpc1 & Hidle1 & Hw1).
    assert (Hq : quiet (run (handle_now SERVICE_CONTROL_STOP) m)).
    { unfold quiet. rewrite Hidle1. exact I. }
    destruct (stop_free_run s _ Hq Hsf) as (Hw & Hp & _).
    split; [exact Hst|].
    unfold current_state. rewrite Hw, Hp, Hticks.
    rewrite handle_now_is_ServiceCtrlHandler by assumption.
    clear - Hpc. destruct m as [w pc cp h]; cbn [svc world ctl] in *.
    destruct Hpc as [-> | ->]; repeat split.
Qed.

(** * The process entry point *)


(** * Instances *)

(** Control code 4 is SERVICE_CONTROL_INTERROGATE. *)
Lemma ServiceCtrlHandler_other_interrogate :
  4 <> SERVICE_CONTROL_STOP /\ ServiceCtrlHandler 4 initial_world = initial_world.
Proof.
  split.
  - unfold SERVICE_CONTROL_STOP; lia.
  - apply (ServiceCtrlHandler_other initial_world 4). unfold SERVICE_CONTROL_STOP; lia.
Defined.

(** Two Stops after a registration that gave handle 7. *)
Lemma ServiceCtrlHandler_stop_twice_registered :
  let m := run [Svc] (boot 7 initial_world) in
  let m2 := run (handle_now SERVICE_CONTROL_STOP ++ handle_now SERVICE_CONTROL_STOP) m in
  handler_installed m = true /\ ctl m = CIdle /\
  world m2 = ServiceCtrlHandler SERVICE_CONTROL_STOP
               (ServiceCtrlHandler SERVICE_CONTROL_STOP (world m)) /\
  ctl m2 = CIdle /\ svc m2 = svc m.
Proof.
  cbv zeta. split; [reflexivity|]. split; [reflexivity|].
  apply (ServiceCtrlHandler_stop_twice
           (world (run [Svc] (boot 7 initial_world)))); reflexivity.
Defined.

(** Start-up with SERVICE_CONTROL_INTERROGATE arriving after line 19. *)
Lemma ServiceMain_startup_running_interrogated :
  let s := [Svc; Svc; Deliver 4; Svc; Ctl; Svc; Svc] in
  stop_free s = true /\ ticks s = 5%nat /\
  world (run s (boot 7 initial_world)) = ServiceMain_startup 7 initial_world /\
  svc (run s (boot 7 initial_world)) = S26.
Proof.
  cbv zeta. split; [reflexivity|]. split; [reflexivity|].
  apply (ServiceMain_startup_running 7 initial_world); reflexivity.
Defined.

(** A failed registration, with a Stop sent in vain during start-up. *)
Lemma registration_result_unchecked_failed :
  let s := [Svc; Deliver SERVICE_CONTROL_STOP; Ctl; Svc; Svc; Ctl; Svc; Svc] in
  ticks s = 5%nat /\ svc (run s (boot NULL_HANDLE initial_world)) = S26.
Proof.
  cbv zeta. split; [reflexivity|].
  apply (registration_result_unchecked NULL_HANDLE initial_world); reflexivity.
Defined.

(** A Stop handled when line 20 has run and line 21 has not, then lines
    21, 23 and 26, with SERVICE_CONTROL_INTERROGATE arriving on the way. *)
Lemma stop_past_line_20_ends_loop_at_line_21 :
  let m0 := run (repeat Svc 3) (boot 7 initial_world) in
  let s1 := handle_now SERVICE_CONTROL_STOP in
  let s2 := [Svc; Deliver 4; Svc; Svc] in
  past_line_20 (svc m0) = true /\ handler_installed m0 = true /\ ctl m0 = CIdle /\
  current_state (run s1 m0) = SERVICE_STOPPED /\
  (3 <= ticks s2)%nat /\
  returned (run s2 (run s1 m0)) = true.
Proof.
  cbv zeta.
  split; [reflexivity|]. split; [reflexivity|]. split; [reflexivity|].
  split; [reflexivity|]. split; [simpl; lia|].
  destruct (stop_past_line_20_ends_loop
              (run (repeat Svc 3) (boot 7 initial_world))
              (handle_now SERVICE_CONTROL_STOP) [Svc; Deliver 4; Svc; Svc] eq_refl)
    as [_ Hafter].
  destruct (Hafter eq_refl) as (_ & _ & _ & _ & Hthree & _).
  apply Hthree. simpl; lia.
Defined.

(** The check that follows a Stop handled before the first check, and a
    second Stop afterwards. *)
Lemma stopped_is_final_after_second_stop :
  let m := run (repeat Svc 5 ++ handle_now SERVICE_CONTROL_STOP) (boot 7 initial_world) in
  let s := handle_now SERVICE_CONTROL_STOP ++ [Svc] in
  svc m = S26 /\ current_state m = SERVICE_STOPPED /\
  svc (run s (step_svc m)) = SRet /\
  serviceStatus (world (run s (step_svc m))) = serviceStatus (world m).
Proof.
  cbv zeta. split; [reflexivity|]. split; [reflexivity|].
  split;
    apply (stopped_is_final
             (run (repeat Svc 5 ++ handle_now SERVICE_CONTROL_STOP) (boot 7 initial_world))
             (handle_now SERVICE_CONTROL_STOP ++ [Svc])); reflexivity.
Defined.

(** The Stop right after the registration, as in [early_stop]. *)
Lemma running_write_overwrites_early_stop_at_line_19 :
  let m := run [Svc] (boot 7 initial_world) in
  let s := repeat Svc 5 in
  handler_installed m = true /\ ctl m = CIdle /\ svc m = S19 /\
  stop_free s = true /\ ticks s = to_first_check (svc m) /\
  current_state (run s (run (handle_now SERVICE_CONTROL_STOP) m)) = SERVICE_RUNNING /\
  svc (run s (run (handle_now SERVICE_CONTROL_STOP) m)) = S27.
Proof.
  cbv zeta.
  split; [reflexivity|]. split; [reflexivity|]. split; [reflexivity|].
  split; [reflexivity|]. split; [reflexivity|].
  split;
    apply (running_write_overwrites_early_stop
             (run [Svc] (boot 7 initial_world)) (repeat Svc 5));
    try reflexivity; left; reflexivity.
Defined.


(** * Whole runs *)

(** ** The record along a run *)

Lemma tracks_boot (h : SERVICE_STATUS_HANDLE) (w : World) :
  tracks h (serviceStatus w) (boot h w).
Proof.
  unfold tracks, boot; cbn. repeat split; auto. discriminate.
Qed.

Lemma tracks_step_svc (h : SERVICE_STATUS_HANDLE) (r0 : SERVICE_STATUS) (m : Machine) :
  tracks h r0 m -> tracks h r0 (step_svc m).
Proof.
  destruct m as [w pc cp h']. unfold tracks; cbn [scm_answer svc ctl world].
  intros (Hh & Hno & Hrec & Hret). subst h'.
  unfold handler_installed in *; cbn [svc scm_answer] in *.
  destruct pc; unfold step_svc; cbn [svc]; unfold loop_condition;
    cbn [goto_svc upd_world world svc ctl scm_answer RegisterServiceCtrlHandler
         with_handle with_status emit serviceStatus SetServiceStatus Sleep].
  - (* line 14 *)
    destruct (Hno eq_refl) as [Hidle Hr]. cbn [init_upto] in *.
    repeat split; auto. discriminate.
  - (* line 19 *)
    split; [reflexivity|]. split; [|split; [follow Hrec | discriminate]].
    intro Hni. destruct (Hno Hni) as [Hidle Hr]. rewrite Hr. auto.
  - (* line 20 *)
    split; [reflexivity|]. split; [|split; [follow Hrec | discriminate]].
    intro Hni. destruct (Hno Hni) as [Hidle Hr]. rewrite Hr. auto.
  - (* line 21 *)
    split; [reflexivity|]. split; [|split; [follow Hrec | discriminate]].
    intro Hni. destruct (Hno Hni) as [Hidle Hr]. rewrite Hr. auto.
  - (* line 23 *)
    split; [reflexivity|]. split; [|split; [exact Hrec | discriminate]].
    exact Hno.
  - (* line 26 *)
    destruct Hrec as [Hrec|Hrec]; rewrite Hrec; cbn.
    + split; [reflexivity|]. split; [|split; [left; exact Hrec | discriminate]].
      exact Hno.
    + split; [reflexivity|]. split; [|split; [right; exact Hrec | intros _; exact Hrec]].
      intro Hni. destruct (Hno Hni) as [_ Hr]. rewrite Hr in Hrec.
      apply (f_equal dwCurrentState) in Hrec. discriminate.
  - (* line 27 *)
    split; [reflexivity|]. split; [|split; [exact Hrec | discriminate]].
    exact Hno.
  - (* returned *)
    repeat split; auto; apply Hno; assumption.
Qed.

Lemma tracks_deliver (h : SERVICE_STATUS_HANDLE) (r0 : SERVICE_STATUS)
  (c : DWORD) (m : Machine) :
  tracks h r0 m -> tracks h r0 (deliver c m).
Proof.
  unfold deliver. destruct (ctl m) eqn:Ectl; auto.
  destruct (handler_installed m) eqn:Ein; auto.
  unfold tracks, handler_installed in *. cbn [goto_ctl svc scm_answer world ctl].
  intros (Hh & Hno & Hrec & Hret). repeat split; auto; congruence.
Qed.

Lemma tracks_busy (h : SERVICE_STATUS_HANDLE) (r0 : SERVICE_STATUS) (m : Machine) :
  tracks h r0 m -> ctl m <> CIdle -> handler_installed m = true.
Proof.
  intros (_ & Hno & _) Hbusy. destruct (handler_installed m); [reflexivity|].
  destruct (Hno eq_refl) as [Hidle _]. contradiction.
Qed.

Lemma tracks_step_ctl (h : SERVICE_STATUS_HANDLE) (r0 : SERVICE_STATUS) (m : Machine) :
  tracks h r0 m -> tracks h r0 (step_ctl m).
Proof.
  intro Hm. destruct (ctl m) as [|c| |] eqn:Ectl.
  - unfold step_ctl. rewrite Ectl. exact Hm.
  - (* line 7 *)
    assert (Hin : handler_installed m = true) by (apply (tracks_busy h r0); congruence).
    destruct Hm as (Hh & Hno & Hrec & Hret).
    unfold step_ctl. rewrite Ectl.
    destruct (c =? SERVICE_CONTROL_STOP).
    + split; [exact Hh|]. split; [|split; [exact Hrec | exact Hret]].
      intro Hni. assert (handler_installed m = false) by exact Hni. congruence.
    + split; [exact Hh|]. split; [|split; [exact Hrec | exact Hret]].
      intro Hni. assert (handler_installed m = false) by exact Hni. congruence.
  - (* line 8 *)
    assert (Hin : handler_installed m = true) by (apply (tracks_busy h r0); congruence).
    destruct Hm as (Hh & Hno & Hrec & Hret).
    unfold step_ctl. rewrite Ectl.
    split; [exact Hh|]. split; [|split].
    + intro Hni. assert (handler_installed m = false) by exact Hni. congruence.
    + right. cbn [goto_ctl upd_world with_status svc world serviceStatus].
      destruct Hrec as [Hrec|Hrec]; rewrite Hrec; reflexivity.
    + intro Hpc. cbn [goto_ctl upd_world with_status svc world serviceStatus].
      rewrite (Hret Hpc). reflexivity.
  - (* line 9 *)
    assert (Hin : handler_installed m = true) by (apply (tracks_busy h r0); congruence).
    destruct Hm as (Hh & Hno & Hrec & Hret).
    unfold step_ctl. rewrite Ectl.
    split; [exact Hh|]. split; [|split; [exact Hrec | exact Hret]].
    intro Hni. assert (handler_installed m = false) by exact Hni. congruence.
Qed.

Lemma tracks_run (h : SERVICE_STATUS_HANDLE) (w : World) (s : Schedule) :
  tracks h (serviceStatus w) (run s (boot h w)).
Proof.
  apply run_preserves; [|apply tracks_boot].
  intros [|c|] m Hm; cbn [act].
  - apply tracks_step_svc, Hm.
  - apply tracks_deliver, Hm.
  - apply tracks_step_ctl, Hm.
Qed.

(** ** The calls along a run *)

Lemma calls_well_boot (h : SERVICE_STATUS_HANDLE) (w : World) :
  calls_well h (trace w) (boot h w).
Proof.
  unfold calls_well, boot; cbn.
  repeat split; auto; try discriminate; try congruence.
  exists []. split; [reflexivity | constructor].
Qed.

(** One more call on top of those made so far. *)
Lemma calls_grow (t0 t : list Event) (e : Event) :
  ok_event e ->
  (exists new, t = new ++ t0 /\ Forall ok_event new) ->
  exists new, e :: t = new ++ t0 /\ Forall ok_event new.
Proof.
  intros He (new & -> & Hall). exists (e :: new). split; [reflexivity|].
  constructor; assumption.
Qed.

Lemma calls_well_step_svc (h : SERVICE_STATUS_HANDLE) (t0 : list Event) (m : Machine) :
  calls_well h t0 m -> calls_well h t0 (step_svc m).
Proof.
  destruct m as [w pc cp h']. unfold calls_well; cbn [scm_answer svc ctl world].
  intros (Hh & Hidle & Hhandle & Hpast & Hc9 & Hcalls). subst h'.
  destruct pc; unfold step_svc; cbn [svc]; unfold running_or_stopped in *;
    cbn [goto_svc upd_world world svc ctl scm_answer RegisterServiceCtrlHandler
         with_handle with_status emit serviceStatus serviceStatusHandle trace
         SetServiceStatus Sleep past_line_20
         set_dwServiceType set_dwCurrentState set_dwControlsAccepted dwCurrentState] in *.
  - (* line 14 *)
    split; [reflexivity|]. split; [discriminate|]. split; [reflexivity|].
    split; [discriminate|]. split; [rewrite (Hidle eq_refl); discriminate|].
    apply calls_grow; [reflexivity | exact Hcalls].
  - (* line 19 *)
    split; [reflexivity|]. split; [discriminate|].
    split; [intros _; apply Hhandle; discriminate|]. auto.
  - (* line 20 *)
    split; [reflexivity|]. split; [discriminate|].
    split; [intros _; apply Hhandle; discriminate|]. auto.
  - (* line 21 *)
    split; [reflexivity|]. split; [discriminate|].
    split; [intros _; apply Hhandle; discriminate|]. auto.
  - (* line 23 *)
    split; [reflexivity|]. split; [discriminate|].
    split; [intros _; apply Hhandle; discriminate|].
    split; [exact Hpast|]. split; [exact Hc9|].
    apply calls_grow; [|exact Hcalls].
    apply Hpast; reflexivity.
  - (* line 26 *)
    destruct (loop_condition w); cbn [goto_svc world svc ctl scm_answer past_line_20];
      (split; [reflexivity|]; split; [discriminate|];
       split; [intros _; apply Hhandle; discriminate|]; auto).
  - (* line 27 *)
    split; [reflexivity|]. split; [discriminate|].
    split; [intros _; apply Hhandle; discriminate|].
    split; [exact Hpast|]. split; [exact Hc9|].
    apply calls_grow; [reflexivity | exact Hcalls].
  - (* returned *)
    auto 10.
Qed.

Lemma calls_well_deliver (h : SERVICE_STATUS_HANDLE) (t0 : list Event)
  (c : DWORD) (m : Machine) :
  calls_well h t0 m -> calls_well h t0 (deliver c m).
Proof.
  unfold deliver. destruct (ctl m) eqn:Ectl; auto.
  destruct (handler_installed m) eqn:Ein; auto.
  unfold calls_well. cbn [goto_ctl svc scm_answer world ctl].
  intros (Hh & Hidle & Hhandle & Hpast & Hc9 & Hcalls).
  repeat split; auto; try discriminate.
  intro Hpc. unfold handler_installed in Ein. rewrite Hpc in Ein. discriminate.
Qed.

Lemma calls_well_step_ctl (h : SERVICE_STATUS_HANDLE) (t0 : list Event) (m : Machine) :
  calls_well h t0 m -> calls_well h t0 (step_ctl m).
Proof.
  intro Hm. destruct (ctl m) as [|c| |] eqn:Ectl.
  - unfold step_ctl. rewrite Ectl. exact Hm.
  - (* line 7 *)
    destruct Hm as (Hh & Hidle & Hhandle & Hpast & Hc9 & Hcalls).
    assert (Hpc : svc m <> S14) by (intro Hpc; rewrite (Hidle Hpc) in Ectl; discriminate).
    unfold step_ctl. rewrite Ectl.
    destruct (c =? SERVICE_CONTROL_STOP).
    + repeat split; auto; try discriminate; contradiction.
    + repeat split; auto; try discriminate.
  - (* line 8 *)
    destruct Hm as (Hh & Hidle & Hhandle & Hpast & Hc9 & Hcalls).
    assert (Hpc : svc m <> S14) by (intro Hpc; rewrite (Hidle Hpc) in Ectl; discriminate).
    unfold step_ctl. rewrite Ectl.
    repeat split; auto; try discriminate; try contradiction; right; reflexivity.
  - (* line 9 *)
    destruct Hm as (Hh & Hidle & Hhandle & Hpast & Hc9 & Hcalls).
    assert (Hpc : svc m <> S14) by (intro Hpc; rewrite (Hidle Hpc) in Ectl; discriminate).
    unfold step_ctl. rewrite Ectl.
    split; [exact Hh|]. split; [intro; contradiction|]. split; [exact Hhandle|].
    split; [exact Hpast|]. split; [discriminate|].
    apply calls_grow; [|exact Hcalls].
    apply Hc9, Ectl.
Qed.

Lemma calls_well_run (h : SERVICE_STATUS_HANDLE) (w : World) (s : Schedule) :
  calls_well h (trace w) (run s (boot h w)).
Proof.
  apply run_preserves; [|apply calls_well_boot].
  intros [|c|] m Hm; cbn [act].
  - apply calls_well_step_svc, Hm.
  - apply calls_well_deliver, Hm.
  - apply calls_well_step_ctl, Hm.
Qed.

(** ** The service thread left alone *)

Lemma run_svc_ctl (n : nat) :
  forall m, ctl (run (repeat Svc n) m) = ctl m.
Proof.
  induction n as [|n IH]; intro m; cbn [repeat run act].
  - reflexivity.
  - rewrite IH. apply step_svc_ctl.
Qed.

Lemma alone_in_loop (h : SERVICE_STATUS_HANDLE) (w : World) (n : nat) :
  (5 <= n)%nat ->
  in_loop (run (repeat Svc n) (boot h w)) = true /\
  current_state (run (repeat Svc n) (boot h w)) = SERVICE_RUNNING /\
  ctl (run (repeat Svc n) (boot h w)) = CIdle.
Proof.
  intro Hn. replace n with (5 + (n - 5))%nat by lia.
  rewrite repeat_app, run_app, startup_is_ServiceMain_startup.
  destruct (running_loop_goes_on (n - 5)
              (mkMachine (ServiceMain_startup h w) S26 CIdle h)) as [Hl Hr];
    try reflexivity.
  rewrite run_svc_ctl. auto.
Qed.

Lemma alone_never_returns (h : SERVICE_STATUS_HANDLE) (w : World) (n : nat) :
  svc (run (repeat Svc n) (boot h w)) <> SRet.
Proof.
  destruct (Nat.le_gt_cases 5 n) as [Hn|Hn].
  - destruct (alone_in_loop h w n Hn) as (Hl & _).
    unfold in_loop in Hl. intro Hpc. rewrite Hpc in Hl. discriminate.
  - do 5 (destruct n as [|n]; [discriminate|]). lia.
Qed.

Lemma repeat_shift {A : Type} (x : A) (n : nat) (l : list A) :
  repeat x n ++ x :: l = x :: repeat x n ++ l.
Proof.
  induction n as [|n IH]; cbn [repeat app].
  - reflexivity.
  - rewrite IH. reflexivity.
Qed.

(** * More on the three routines *)

(** X1.  Under every schedule the record is what [ServiceMain] has written
    up to the line it stands at, except that [dwCurrentState] may hold
    Stopped instead.  So the four fields the program never assigns keep the
    value they had at entry; once line 20 has run the state is Running or
    Stopped and the type is own-process; and in the loop the Stop bit is
    accepted. *)
Theorem record_along_run (h : SERVICE_STATUS_HANDLE) (w : World) (s : Schedule) :
  let m := run s (boot h w) in
  let r := serviceStatus (world m) in
  (r = init_upto (svc m) (serviceStatus w) \/
   r = set_dwCurrentState SERVICE_STOPPED (init_upto (svc m) (serviceStatus w))) /\
  dwWin32ExitCode r = dwWin32ExitCode (serviceStatus w) /\
  dwServiceSpecificExitCode r = dwServiceSpecificExitCode (serviceStatus w) /\
  dwCheckPoint r = dwCheckPoint (serviceStatus w) /\
  dwWaitHint r = dwWaitHint (serviceStatus w) /\
  (past_line_20 (svc m) = true ->
   running_or_stopped r /\ dwServiceType r = SERVICE_WIN32_OWN_PROCESS) /\
  (in_loop m = true -> accepts r SERVICE_ACCEPT_STOP = true).
Proof.
  cbv zeta. destruct (tracks_run h w s) as (_ & _ & Hrec & _).
  split; [exact Hrec|]. unfold in_loop, running_or_stopped, accepts.
  destruct Hrec as [-> | ->]; destruct (svc (run s (boot h w)));
    cbn; repeat split; auto; discriminate.
Qed.

(** X2.  If [ServiceMain] returns, the record it leaves is the one it set
    up with Stopped in [dwCurrentState], and the stored handle is the one
    the registration returned. *)
Theorem ServiceMain_returns_stopped (h : SERVICE_STATUS_HANDLE) (s : Schedule)
  (w w' : World) :
  ServiceMain h s w = Some w' ->
  serviceStatus w' = set_dwCurrentState SERVICE_STOPPED (started (serviceStatus w)) /\
  serviceStatusHandle w' = h.
Proof.
  unfold ServiceMain; cbv zeta.
  destruct (svc (run s (boot h w))) eqn:Hpc; try discriminate.
  intro Hsome; injection Hsome as <-.
  destruct (tracks_run h w s) as (_ & _ & _ & Hret).
  destruct (calls_well_run h w s) as (_ & _ & Hhandle & _).
  split; [apply Hret, Hpc | apply Hhandle; congruence].
Qed.

(** X3.  When the registration fails no handler is ever called, so under
    every schedule the record stays Running once written, [ServiceMain]
    does not return, and [main] does not exit. *)
Theorem failed_registration_never_returns (s : Schedule) (w : World) :
  ctl (run s (boot NULL_HANDLE w)) = CIdle /\
  serviceStatus (world (run s (boot NULL_HANDLE w)))
    = init_upto (svc (run s (boot NULL_HANDLE w))) (serviceStatus w) /\
  ServiceMain NULL_HANDLE s w = None /\
  main (mkHost true NULL_HANDLE s) w = None.
Proof.
  destruct (tracks_run NULL_HANDLE w s) as (Hh & Hno & _ & Hret).
  assert (Hni : handler_installed (run s (boot NULL_HANDLE w)) = false).
  { unfold handler_installed. rewrite Hh.
    destruct (svc (run s (boot NULL_HANDLE w))); reflexivity. }
  destruct (Hno Hni) as [Hidle Hrec].
  assert (Hnone : ServiceMain NULL_HANDLE s w = None).
  { unfold ServiceMain; cbv zeta.
    destruct (svc (run s (boot NULL_HANDLE w))) eqn:Hpc; try reflexivity.
    specialize (Hret eq_refl). rewrite Hret in Hrec.
    apply (f_equal dwCurrentState) in Hrec. discriminate. }
  repeat split; auto.
  unfold main, main_with, StartServiceCtrlDispatcher.
  cbn [connects serviceTable answer schedule]. rewrite Hnone. reflexivity.
Qed.

(** X4.  The loop is left only through a Stop: under a schedule in which
    no Stop arrives, whatever else arrives, [ServiceMain] does not return
    and [main] does not exit. *)
Theorem no_stop_never_returns (h : SERVICE_STATUS_HANDLE) (s : Schedule) (w : World) :
  stop_free s = true ->
  ServiceMain h s w = None /\ main (mkHost true h s) w = None.
Proof.
  intro Hsf.
  assert (Hnone : ServiceMain h s w = None).
  { unfold ServiceMain; cbv zeta.
    destruct (stop_free_run s (boot h w) I Hsf) as (_ & Hp & _).
    destruct (svc (run s (boot h w))) eqn:Hpc; try reflexivity.
    symmetry in Hp. apply alone_never_returns in Hp. contradiction. }
  split; [exact Hnone|].
  unfold main, main_with, StartServiceCtrlDispatcher.
  cbn [connects serviceTable answer schedule]. rewrite Hnone. reflexivity.
Qed.

(** X5.  Under every schedule the calls the program adds to the trace are
    of three kinds only: the registration under the name MyService, a
    status report whose state is Running or Stopped, whatever the record
    held at entry, and a sleep of 1000. *)
Theorem calls_along_run (h : SERVICE_STATUS_HANDLE) (w : World) (s : Schedule) :
  exists new : list Event,
    trace (world (run s (boot h w))) = new ++ trace w /\
    Forall ok_event new.
Proof.
  destruct (calls_well_run h w s) as (_ & _ & _ & _ & _ & Hcalls). exact Hcalls.
Qed.

(** X6.  The handler called on a list of codes in turn: the handle is
    kept; the record is untouched when no code is Stop and has Stopped in
    [dwCurrentState] otherwise; and the trace gains one report per Stop,
    each carrying that Stopped record, and nothing else. *)
Theorem handle_all_stops (codes : list DWORD) (w : World) :
  let w' := handle_all codes w in
  let stopped := set_dwCurrentState SERVICE_STOPPED (serviceStatus w) in
  serviceStatusHandle w' = serviceStatusHandle w /\
  serviceStatus w' = match stops codes with
                     | O => serviceStatus w
                     | S _ => stopped
                     end /\
  trace w' = repeat (EvSetServiceStatus (serviceStatusHandle w) stopped) (stops codes)
               ++ trace w.
Proof.
  cbv zeta. revert w. unfold handle_all, stops.
  induction codes as [|c codes IH]; intro w; cbn [fold_left filter].
  - repeat split.
  - destruct (IH (ServiceCtrlHandler c w)) as (Hh & Hrec & Htr).
    rewrite Hh, Hrec, Htr. unfold ServiceCtrlHandler.
    destruct (c =? SERVICE_CONTROL_STOP).
    + cbn [List.length repeat app serviceStatusHandle serviceStatus trace
           SetServiceStatus emit with_status].
      rewrite repeat_shift.
      destruct (List.length _); repeat split.
    + repeat split.
Qed.

(** X7.  The handler's report need not say Stopped.  When line 20 runs
    between the handler's lines 8 and 9, the handler's write is lost and
    the report it then makes in answer to the Stop carries Running. *)
Theorem handler_report_can_say_running (m : Machine) :
  svc m = S20 -> ctl m = C8 ->
  let m' := run [Ctl; Svc; Ctl] m in
  ctl m' = CIdle /\ svc m' = S21 /\
  current_state m' = SERVICE_RUNNING /\
  trace (world m') =
    EvSetServiceStatus (serviceStatusHandle (world m))
      (set_dwCurrentState SERVICE_RUNNING (serviceStatus (world m)))
      :: trace (world m).
Proof.
  destruct m as [w pc cp h]; cbn [svc ctl]. intros -> ->. repeat split.
Qed.


(** ** What the SCM has been told *)

Lemma synced_act (a : Action) (m : Machine) : synced m -> synced (act a m).
Proof.
  destruct m as [w pc cp h]. unfold synced, in_loop, returned.
  cbn [svc ctl world]. intro Hm.
  destruct a as [|c|]; cbn [act].
  - unfold step_svc; cbn [svc]. destruct pc;
      try (destruct (loop_condition _));
      cbn; intros Hpc Hc9; try discriminate; try reflexivity; apply Hm; auto.
  - unfold deliver; cbn [ctl]. destruct cp; try exact Hm.
    destruct (handler_installed _); cbn; intros Hpc _; apply Hm; auto; discriminate.
  - unfold step_ctl; cbn [ctl]. destruct cp as [|c| |]; try exact Hm.
    + destruct (c =? SERVICE_CONTROL_STOP); cbn; intros Hpc Hc9;
        try contradiction; apply Hm; auto; discriminate.
    + cbn. intros _ Hc9. contradiction.
    + cbn. intros _ _. reflexivity.
Qed.

Lemma synced_run (h : SERVICE_STATUS_HANDLE) (w : World) (s : Schedule) :
  synced (run s (boot h w)).
Proof.
  apply run_preserves; [exact synced_act|].
  unfold synced, boot; cbn. discriminate.
Qed.

(** ** The registration comes first *)

Lemma registered_first_act (t0 : list Event) (a : Action) (m : Machine) :
  registered_first t0 m -> registered_first t0 (act a m).
Proof.
  destruct m as [w pc cp h]. unfold registered_first; cbn [svc ctl world].
  intros [H14 Hlater].
  assert (Hgrow : forall e, is_registration e = false -> pc <> S14 ->
            exists rest,
              e :: trace w = rest ++ EvRegisterServiceCtrlHandler "MyService" :: t0 /\
              forallb (fun e => negb (is_registration e)) rest = true).
  { intros e He Hpc. destruct (Hlater Hpc) as (rest & -> & Hrest).
    exists (e :: rest). split; [reflexivity|]. cbn [forallb]. rewrite He, Hrest. reflexivity. }
  destruct a as [|c|]; cbn [act].
  - unfold step_svc; cbn [svc]. destruct pc;
      try (destruct (loop_condition _)); cbn;
      (split; [discriminate|]); intros _;
      try (apply Hlater; discriminate);
      try (apply Hgrow; [reflexivity|discriminate]).
    destruct (H14 eq_refl) as [_ ->]. exists []. split; reflexivity.
  - unfold deliver; cbn [ctl]. destruct cp; try (split; assumption).
    unfold handler_installed; cbn [svc scm_answer]. destruct pc; try (split; assumption);
      destruct (negb _); cbn; (split; [discriminate | intros _; apply Hlater; discriminate]).
  - unfold step_ctl; cbn [ctl]. destruct cp as [|c| |]; try (split; assumption).
    + destruct (c =? SERVICE_CONTROL_STOP); cbn;
        (split; [intro Hpc; destruct (H14 Hpc); discriminate | exact Hlater]).
    + cbn. split; [intro Hpc; destruct (H14 Hpc); discriminate | exact Hlater].
    + cbn. split; [intro Hpc; destruct (H14 Hpc); discriminate |].
      intro Hpc. apply Hgrow; [reflexivity | exact Hpc].
Qed.

Lemma registered_first_run (h : SERVICE_STATUS_HANDLE) (w : World) (s : Schedule) :
  registered_first (trace w) (run s (boot h w)).
Proof.
  apply run_preserves; [apply registered_first_act|].
  unfold registered_first, boot; cbn. split; [auto | intros []; reflexivity].
Qed.

(** X9.  Once the service thread is past its startup report, and unless a
    handler call stands between its lines 8 and 9, the latest status
    report is on the registration's handle and carries the record exactly
    as it is now.  In particular when [ServiceMain] has returned and the
    handler is done, the SCM was last told Stopped. *)
Theorem scm_knows_the_record (h : SERVICE_STATUS_HANDLE) (w : World) (s : Schedule) :
  let m := run s (boot h w) in
  in_loop m || returned m = true -> ctl m <> C9 ->
  hd_error (reports (trace (world m))) = Some (h, serviceStatus (world m)) /\
  (returned m = true ->
   hd_error (reports (trace (world m)))
     = Some (h, set_dwCurrentState SERVICE_STOPPED (started (serviceStatus w)))).
Proof.
  cbv zeta. intros Hpc Hc9.
  pose proof (synced_run h w s Hpc Hc9) as Hsync.
  destruct (calls_well_run h w s) as (_ & _ & Hhandle & _).
  destruct (tracks_run h w s) as (_ & _ & _ & Hret).
  assert (Hh : serviceStatusHandle (world (run s (boot h w))) = h).
  { apply Hhandle. intro H14. unfold in_loop, returned in Hpc.
    rewrite H14 in Hpc. discriminate. }
  rewrite Hh in Hsync. split; [exact Hsync|].
  intro Hr. rewrite Hsync, Hret; [reflexivity|].
  unfold returned in Hr. destruct (svc (run s (boot h w))); try discriminate; reflexivity.
Qed.

(** X10.  Under every schedule the program registers at most once, and
    the registration is the first call it makes: until line 14 has run the
    trace is as at entry, and afterwards the registration under the name
    MyService is the oldest added call and no later call is a
    registration. *)
Theorem registers_once_first (h : SERVICE_STATUS_HANDLE) (w : World) (s : Schedule) :
  let m := run s (boot h w) in
  (svc m = S14 -> trace (world m) = trace w) /\
  (svc m <> S14 ->
   exists rest,
     trace (world m) = rest ++ EvRegisterServiceCtrlHandler "MyService" :: trace w /\
     forallb (fun e => negb (is_registration e)) rest = true).
Proof.
  cbv zeta. destruct (registered_first_run h w s) as [H14 Hlater].
  split; [intro Hpc; apply (H14 Hpc) | exact Hlater].
Qed.

(** ** Instances of the properties of whole runs *)

(** A Stop handled during the first [Sleep]. *)
Lemma record_along_run_stop_in_sleep :
  let m := run (repeat Svc 6 ++ handle_now SERVICE_CONTROL_STOP) (boot 7 initial_world) in
  past_line_20 (svc m) = true /\ in_loop m = true /\
  running_or_stopped (serviceStatus (world m)) /\
  dwServiceType (serviceStatus (world m)) = SERVICE_WIN32_OWN_PROCESS /\
  accepts (serviceStatus (world m)) SERVICE_ACCEPT_STOP = true.
Proof.
  cbv zeta. split; [reflexivity|]. split; [reflexivity|].
  destruct (record_along_run 7 initial_world
              (repeat Svc 6 ++ handle_now SERVICE_CONTROL_STOP))
    as (_ & _ & _ & _ & _ & Hpast & Hloop).
  destruct (Hpast eq_refl) as [Hrs Hty].
  split; [exact Hrs|]. split; [exact Hty|]. exact (Hloop eq_refl).
Defined.

(** The run of [immediate_stop]. *)
Lemma ServiceMain_returns_stopped_immediate :
  ServiceMain 7 immediate_stop initial_world
    = Some (ServiceCtrlHandler SERVICE_CONTROL_STOP (ServiceMain_startup 7 initial_world)) /\
  serviceStatus (ServiceCtrlHandler SERVICE_CONTROL_STOP (ServiceMain_startup 7 initial_world))
    = set_dwCurrentState SERVICE_STOPPED (started zero_status) /\
  serviceStatusHandle
    (ServiceCtrlHandler SERVICE_CONTROL_STOP (ServiceMain_startup 7 initial_world)) = 7.
Proof.
  split; [reflexivity|].
  apply (ServiceMain_returns_stopped 7 immediate_stop initial_world). reflexivity.
Defined.

(** Two turns of the loop with SERVICE_CONTROL_INTERROGATE arriving twice. *)
Lemma no_stop_never_returns_interrogated :
  let s := repeat Svc 6 ++ handle_now 4 ++ repeat Svc 3 ++ handle_now 4 in
  stop_free s = true /\
  ServiceMain 7 s initial_world = None /\
  main (mkHost true 7 s) initial_world = None.
Proof.
  cbv zeta. split; [reflexivity|].
  apply (no_stop_never_returns 7
           (repeat Svc 6 ++ handle_now 4 ++ repeat Svc 3 ++ handle_now 4)
           initial_world).
  reflexivity.
Defined.

(** The Stop arrives after line 19 and the handler has run its line 7. *)
Lemma handler_report_can_say_running_at_line_20 :
  let m := run [Svc; Svc; Deliver SERVICE_CONTROL_STOP; Ctl] (boot 7 initial_world) in
  svc m = S20 /\ ctl m = C8 /\
  current_state (run [Ctl; Svc; Ctl] m) = SERVICE_RUNNING /\
  ctl (run [Ctl; Svc; Ctl] m) = CIdle.
Proof.
  cbv zeta. split; [reflexivity|]. split; [reflexivity|].
  destruct (handler_report_can_say_running
              (run [Svc; Svc; Deliver SERVICE_CONTROL_STOP; Ctl] (boot 7 initial_world))
              eq_refl eq_refl) as (Hidle & _ & Hst & _).
  split; [exact Hst | exact Hidle].
Defined.


(** After the run of [immediate_stop]. *)
Lemma scm_knows_the_record_immediate :
  let m := run immediate_stop (boot 7 initial_world) in
  in_loop m || returned m = true /\ ctl m <> C9 /\ returned m = true /\
  hd_error (reports (trace (world m)))
    = Some (7, set_dwCurrentState SERVICE_STOPPED (started zero_status)).
Proof.
  cbv zeta.
  assert (Hc9 : ctl (run immediate_stop (boot 7 initial_world)) <> C9)
    by (simpl; discriminate).
  split; [reflexivity|]. split; [exact Hc9|]. split; [reflexivity|].
  destruct (scm_knows_the_record 7 initial_world immediate_stop eq_refl Hc9) as [_ Hret].
  exact (Hret eq_refl).
Defined.

(** Lines 14 and 19 have run; and nothing has run. *)
Lemma registers_once_first_two_lines :
  svc (run [Svc; Svc] (boot 7 initial_world)) <> S14 /\
  svc (run [] (boot 7 initial_world)) = S14 /\
  trace (world (run [] (boot 7 initial_world))) = [] /\
  exists rest,
    trace (world (run [Svc; Svc] (boot 7 initial_world)))
      = rest ++ EvRegisterServiceCtrlHandler "MyService" :: [] /\
    forallb (fun e => negb (is_registration e)) rest = true.
Proof.
  assert (Hpc : svc (run [Svc; Svc] (boot 7 initial_world)) <> S14)
    by (simpl; discriminate).
  split; [exact Hpc|]. split; [reflexivity|]. split.
  - apply (registers_once_first 7 initial_world []). reflexivity.
  - apply (registers_once_first 7 initial_world [Svc; Svc]). exact Hpc.
Defined.
